(** * Resume ZIP analyzer (app.py): shallow embedding and verified properties

    The program unpacks an uploaded ZIP archive into a scratch directory,
    reads every PDF and DOCX file it finds, asks a chat model for a
    structured record per document and writes the records to a CSV file.

    Text is modelled as [string], the UTF-8 bytes of the Python [str].
    The collaborators that live outside the repository (the chat model,
    LangChain's output parser, the directory listing order of the
    platform) are the fields of the class [Externals]. *)

From stdpp Require Import gmap strings list fin_maps.
From Stdlib Require Import Ascii String NArith.
Open Scope string_scope.

(** ** Python values used by the program *)

Module Py.

(** Exceptions the program can meet.  All of them are subclasses of
    [Exception], so [except Exception] catches every one. *)
Inductive exception :=
| TypeError (msg : string)
| ValueError (msg : string)
| BadZipFile (msg : string)
| PdfReadError (msg : string)
| PackageNotFoundError (msg : string)
| ProviderError (msg : string)
| OutputParserException (msg : string).

(** [str(e)] *)
Definition str (e : exception) : string :=
  match e with
  | TypeError m | ValueError m | BadZipFile m | PdfReadError m
  | PackageNotFoundError m | ProviderError m | OutputParserException m => m
  end.

(** What a call does: it returns a value or raises. *)
Inductive outcome (A : Type) :=
| Returns (a : A)
| Raises (e : exception).
Arguments Returns {A} a.
Arguments Raises {A} e.

Definition obind {A B} (o : outcome A) (k : A -> outcome B) : outcome B :=
  match o with
  | Returns a => k a
  | Raises e => Raises e
  end.

(** [sep.join(xs)] *)
Fixpoint join (sep : string) (xs : list string) : string :=
  match xs with
  | [] => ""
  | [x] => x
  | x :: rest => x +:+ sep +:+ join sep rest
  end.

(** Truth value of a [str]: only the empty string is false. *)
Definition truthy (s : string) : bool :=
  match s with
  | EmptyString => false
  | String _ _ => true
  end.

(** [x or d] for an [x] that is [None] or a [str]. *)
Definition or_else (x : option string) (d : string) : string :=
  match x with
  | Some s => if truthy s then s else d
  | None => d
  end.

(** [s.lower()] on the ASCII letters.  Characters outside ASCII are kept:
    none of them lowercases to a character of [".pdf"] or [".docx"], so the
    suffix tests of the program see the same answer. *)
Definition lower_ascii (c : ascii) : ascii :=
  let n := nat_of_ascii c in
  if (65 <=? n)%nat && (n <=? 90)%nat then ascii_of_nat (n + 32) else c.

Fixpoint lower (s : string) : string :=
  match s with
  | EmptyString => EmptyString
  | String c rest => String (lower_ascii c) (lower rest)
  end.

Fixpoint starts_with {A} (eqb : A -> A -> bool) (pre l : list A) : bool :=
  match pre, l with
  | [], _ => true
  | _ :: _, [] => false
  | a :: pre', b :: l' => eqb a b && starts_with eqb pre' l'
  end.

(** [s.endswith(suffix)]: read from the end, [s] starts with [suffix]. *)
Definition endswith (s suffix : string) : bool :=
  starts_with Ascii.eqb (List.rev (list_ascii_of_string suffix))
              (List.rev (list_ascii_of_string s)).

(** The characters [str.isspace] accepts, each as its UTF-8 bytes:
    U+0009..U+000D, U+001C..U+0020, U+0085, U+00A0, U+1680,
    U+2000..U+200A, U+2028, U+2029, U+202F, U+205F, U+3000. *)
Definition whitespace : list (list N) :=
  ([ [9]; [10]; [11]; [12]; [13]; [28]; [29]; [30]; [31]; [32];
     [194; 133]; [194; 160]; [225; 154; 128];
     [226; 128; 128]; [226; 128; 129]; [226; 128; 130]; [226; 128; 131];
     [226; 128; 132]; [226; 128; 133]; [226; 128; 134]; [226; 128; 135];
     [226; 128; 136]; [226; 128; 137]; [226; 128; 138];
     [226; 128; 168]; [226; 128; 169]; [226; 128; 175];
     [226; 129; 159]; [227; 128; 128] ])%N.

(** Number of bytes of the whitespace character [s] starts with
    (0 when it starts with none). *)
Fixpoint space_width (encs : list (list N)) (s : list N) : nat :=
  match encs with
  | [] => 0
  | enc :: more =>
      if starts_with N.eqb enc s then List.length enc
      else space_width more s
  end.

(** Drops the whitespace characters at the head of [s]; [skip] counts
    the bytes still to drop of the character being removed. *)
Fixpoint drop_spaces (encs : list (list N)) (skip : nat) (s : list N)
  : list N :=
  match s with
  | [] => []
  | _ :: rest =>
      match skip with
      | S k => drop_spaces encs k rest
      | O =>
          match space_width encs s with
          | O => s
          | S k => drop_spaces encs k rest
          end
      end
  end.

Definition bytes_of (s : string) : list N :=
  List.map N_of_ascii (list_ascii_of_string s).

Definition of_bytes (l : list N) : string :=
  string_of_list_ascii (List.map ascii_of_N l).

(** [s.strip()]: whitespace removed at both ends. *)
Definition strip (s : string) : string :=
  let front := drop_spaces whitespace 0 (bytes_of s) in
  let back := drop_spaces (List.map (@List.rev N) whitespace) 0 (List.rev front) in
  of_bytes (List.rev back).

(** [os.path.join(a, b)] for a relative [b]. *)
Definition path_join (a b : string) : string := a +:+ "/" +:+ b.

End Py.
Import Py.

(** ** Documents and the scratch tree *)

(** A page of a PDF: what [page.extract_text()] does ([None], a text, or an
    exception of the PDF library). *)
Record page := Page { extract_text : outcome (option string) }.

(** What the readers find at a path. *)
Inductive body :=
| PDF (pages : list page)
| DOCX (paragraphs : list string)
| Other.

Record file := File { fname : string; fbody : body }.

#[local] Set Warnings "-register-all".

(** A directory as the platform lists it: its regular files and its
    sub-directories, each list in listing order. *)
Inductive dir :=
| Dir (files : list file) (subdirs : list (string * dir)).

Definition dir_files (d : dir) : list file :=
  match d with Dir fs _ => fs end.

Definition dir_subdirs (d : dir) : list (string * dir) :=
  match d with Dir _ ds => ds end.

(** [os.walk(top)]: top-down, one triple [(root, dirs, files)] per directory. *)
Fixpoint walk (root : string) (d : dir)
  : list (string * list string * list file) :=
  match d with
  | Dir fs ds =>
      (root, List.map fst ds, fs)
        :: List.flat_map (fun nd => walk (path_join root (fst nd)) (snd nd)) ds
  end.

(** An uploaded file: its name and its bytes, seen as a document by the
    readers and as an archive by [zipfile] ([None]: not a ZIP archive). *)
Module UploadedFile.
Record t := Make {
  name : string;
  as_document : body;
  as_archive : option dir
}.
End UploadedFile.

(** ** File readers *)

(** The generator [page.extract_text() or "" for page in reader.pages],
    consumed in page order; the first page that raises stops it. *)
Fixpoint page_texts (pages : list page) : outcome (list string) :=
  match pages with
  | [] => Returns []
  | p :: rest =>
      obind (extract_text p) (fun t =>
      obind (page_texts rest) (fun ts =>
      Returns (or_else t "" :: ts)))
  end.

Definition read_pdf (b : body) : outcome string :=
  match b with
  | PDF pages => obind (page_texts pages) (fun ts => Returns (join "" ts))
  | _ => Raises (PdfReadError "EOF marker not found")
  end.

Definition newline : string := String "010" "".

Definition read_docx (b : body) : outcome string :=
  match b with
  | DOCX paragraphs => Returns (join newline paragraphs)
  | _ => Raises (PackageNotFoundError "Package not found")
  end.

(** The two extractors as the specification words them. *)
Definition spec_pdf_text (pages : list (option string)) : string :=
  List.fold_right (fun t acc => default "" t +:+ acc) "" pages.

Definition spec_docx_text (paragraphs : list string) : string :=
  match paragraphs with
  | [] => ""
  | p :: rest => List.fold_left (fun acc q => acc +:+ newline +:+ q) rest p
  end.

(** ** Structured output schema *)

Record ResumeSchema := {
  name : string;
  email : string;
  phone : string;
  skills : string;
  experience_summary : string;
  education : string;
  linkedin : string;
  github : string
}.

(** A Python [dict] with string keys and values, in insertion order. *)
Definition dict := list (string * string).

Definition keys (d : dict) : list string := List.map fst d.

(** [d.get(key, default)] *)
Fixpoint get (d : dict) (key default : string) : string :=
  match d with
  | [] => default
  | (k, v) :: rest => if String.eqb k key then v else get rest key default
  end.

(** [list(ResumeSchema.model_fields.keys())] *)
Definition model_fields_keys : list string :=
  ["name"; "email"; "phone"; "skills"; "experience_summary"; "education";
   "linkedin"; "github"].

(** [result.dict()] *)
Definition to_dict (r : ResumeSchema) : dict :=
  [("name", name r); ("email", email r); ("phone", phone r);
   ("skills", skills r); ("experience_summary", experience_summary r);
   ("education", education r); ("linkedin", linkedin r);
   ("github", github r)].

(** The prompt template: a system and a user message. *)
Definition prompt (resume_text format_instructions : string)
  : list (string * string) :=
  [("system",
    "You are an expert HR resume analyzer. Extract resume information strictly in the given schema.");
   ("user",
    "Resume Text:" +:+ newline +:+ resume_text +:+ newline +:+ newline
      +:+ format_instructions)].

(** ** The csv module, in the default (excel) dialect *)

Module Csv.

Definition delimiter : ascii := ","%char.
Definition quotechar : ascii := ascii_of_nat 34.
Definition lineterminator : string := String "013" (String "010" "").

(** The characters that make the writer quote a field (QUOTE_MINIMAL). *)
Definition special (c : ascii) : bool :=
  Ascii.eqb c delimiter || Ascii.eqb c quotechar
  || Ascii.eqb c "013"%char || Ascii.eqb c "010"%char.

Fixpoint needs_quotes (s : string) : bool :=
  match s with
  | EmptyString => false
  | String c rest => special c || needs_quotes rest
  end.

(** Every quote character is doubled. *)
Fixpoint double_quotes (s : string) : string :=
  match s with
  | EmptyString => EmptyString
  | String c rest =>
      if Ascii.eqb c quotechar
      then String c (String c (double_quotes rest))
      else String c (double_quotes rest)
  end.

Definition write_field (s : string) : string :=
  if needs_quotes s
  then String quotechar (double_quotes s) +:+ String quotechar ""
  else s.

(** [writer.writerow(fields)]: the text appended to the file.  A row made
    of one empty field is written as a pair of quotes. *)
Definition writerow (fields : list string) : string :=
  match fields with
  | [EmptyString] => String quotechar (String quotechar lineterminator)
  | _ => join (String delimiter "") (List.map write_field fields)
           +:+ lineterminator
  end.

(** [DictWriter._dict_to_list] with [restval=""] and
    [extrasaction="raise"]. *)
Definition dict_to_list (fieldnames : list string) (rowdict : dict)
  : outcome (list string) :=
  let wrong_fields :=
    List.filter (fun k => negb (existsb (String.eqb k) fieldnames))
                (keys rowdict) in
  match wrong_fields with
  | [] => Returns (List.map (fun key => get rowdict key "") fieldnames)
  | _ :: _ =>
      Raises (ValueError
                ("dict contains fields not in fieldnames: "
                   +:+ join ", " wrong_fields))
  end.

(** [DictWriter.writeheader()]: the row [dict(zip(fieldnames, fieldnames))]. *)
Definition writeheader (fieldnames : list string) : outcome string :=
  obind (dict_to_list fieldnames (List.combine fieldnames fieldnames))
        (fun row => Returns (writerow row)).

(** [DictWriter.writerows(rowdicts)] appended to what the file holds;
    rows are converted and written one at a time, so the rows before a
    rejected one are already in the file. *)
Fixpoint writerows (fieldnames : list string) (rowdicts : list dict)
                   (written : string) : outcome unit * string :=
  match rowdicts with
  | [] => (Returns tt, written)
  | rowdict :: rest =>
      match dict_to_list fieldnames rowdict with
      | Returns row => writerows fieldnames rest (written +:+ writerow row)
      | Raises e => (Raises e, written)
      end
  end.

End Csv.

(** ** Collaborators outside the repository *)

Class Externals := {
  (** state of the remote model provider *)
  provider : Type;
  (** [ChatGoogleGenerativeAI(model="gemini-2.5-flash", temperature=0)]
      invoked on a prompt, with the value of [GOOGLE_API_KEY] it found:
      the reply text or an exception, and the provider's next state *)
  chat : option string -> list (string * string) -> provider
         -> outcome string * provider;
  (** [parser.get_format_instructions()] *)
  format_instructions : string;
  (** [PydanticOutputParser(pydantic_object=ResumeSchema).parse] *)
  parse : string -> outcome ResumeSchema;
  (** index at which the platform lists the archive file among the regular
      files unpacked at the top of the scratch directory *)
  listdir_rank : string -> dir -> nat
}.

(** ** The process and its temporary files *)

Inductive node :=
| Directory (d : dir)
| RegularFile (content : string).

Section World.
Context {X : Externals}.

Record world := World {
  environ : gmap string string;   (* os.environ *)
  remote : provider;              (* the model provider *)
  warnings : list string;         (* st.warning, oldest first *)
  tmp : gmap string node          (* the temporary directory of the OS *)
}.

Definition set_environ (f : gmap string string -> gmap string string)
           (w : world) : world :=
  World (f (environ w)) (remote w) (warnings w) (tmp w).

Definition set_remote (s : provider) (w : world) : world :=
  World (environ w) s (warnings w) (tmp w).

Definition set_warnings (f : list string -> list string) (w : world)
  : world :=
  World (environ w) (remote w) (f (warnings w)) (tmp w).

Definition set_tmp (f : gmap string node -> gmap string node) (w : world)
  : world :=
  World (environ w) (remote w) (warnings w) (f (tmp w)).

(** Computations of the program: they read and change the world and
    return or raise. *)
Definition M (A : Type) : Type := world -> outcome A * world.

Definition ret {A} (a : A) : M A := fun w => (Returns a, w).

Definition raise {A} (e : exception) : M A := fun w => (Raises e, w).

Definition bind {A B} (m : M A) (k : A -> M B) : M B :=
  fun w =>
    match m w with
    | (Returns a, w') => k a w'
    | (Raises e, w') => (Raises e, w')
    end.

(** [try: m except Exception as e: handler(e)] *)
Definition try_except {A} (m : M A) (handler : exception -> M A) : M A :=
  fun w =>
    match m w with
    | (Returns a, w') => (Returns a, w')
    | (Raises e, w') => handler e w'
    end.

Definition lift {A} (o : outcome A) : M A := fun w => (o, w).

End World.

Notation "x <- m ;; k" := (bind m (fun x => k))
  (at level 100, m at next level, right associativity).
Notation "m ;;; k" := (bind m (fun _ => k))
  (at level 100, right associativity).

(** ** The program *)

Section Program.
Context {X : Externals}.

(** A name ending in [suffix] that no entry of the temporary directory
    has, as [tempfile] picks one. *)
Definition stem_of (suffix p : string) : string :=
  string_of_list_ascii
    (take (String.length p - String.length suffix) (list_ascii_of_string p)).

Definition fresh_name (suffix : string) (used : gset string) : string :=
  fresh (set_map (stem_of suffix) used : gset string) +:+ suffix.

(** [with tempfile.TemporaryDirectory() as temp_dir: body]: the directory
    is created empty, and removed with all it holds when the block is
    left, by return or by exception. *)
Definition TemporaryDirectory {A} (body : string -> M A) : M A :=
  fun w =>
    let temp_dir := fresh_name "" (dom (tmp w)) in
    let '(r, w') :=
      body temp_dir (set_tmp (insert temp_dir (Directory (Dir [] []))) w) in
    (r, set_tmp (delete temp_dir) w').

(** [tempfile.NamedTemporaryFile(delete=False, suffix=suffix)]: the file is
    created empty and nothing is registered to delete it. *)
Definition NamedTemporaryFile_keep (suffix : string) : M string :=
  fun w =>
    let path := fresh_name suffix (dom (tmp w)) in
    (Returns path, set_tmp (insert path (RegularFile "")) w).

(** [with open(path, "w") as f: ...] leaving [content] in the file. *)
Definition save (path content : string) : M unit :=
  fun w => (Returns tt, set_tmp (insert path (RegularFile content)) w).

(** [st.warning(msg)] *)
Definition st_warning (msg : string) : M unit :=
  fun w => (Returns tt, set_warnings (fun l => (l ++ [msg])%list) w).

(** [os.environ[key] = value] *)
Definition has_nul (s : string) : bool :=
  existsb (Ascii.eqb "000"%char) (list_ascii_of_string s).

Definition setenv (key : string) (value : option string) : M unit :=
  match value with
  | None => raise (TypeError "str expected, not NoneType")
  | Some v =>
      if has_nul v then raise (ValueError "embedded null byte")
      else fun w => (Returns tt, set_environ (insert key v) w)
  end.

(** [os.getenv(key)] *)
Definition getenv (key : string) : M (option string) :=
  fun w => (Returns (environ w !! key), w).

(** API key resolution (module level). *)
Definition resolve_api_key (user_api_key : string) : M unit :=
  if truthy user_api_key
  then setenv "GOOGLE_API_KEY" (Some user_api_key)
  else (v <- getenv "gemini" ;; setenv "GOOGLE_API_KEY" v).

(** [get_llm()]: the client holds the key it finds in the environment. *)
Definition get_llm : M (option string) := getenv "GOOGLE_API_KEY".

(** [llm.invoke(messages)] *)
Definition invoke (llm : option string) (messages : list (string * string))
  : M string :=
  fun w =>
    let '(reply, s) := chat llm messages (remote w) in
    (reply, set_remote s w).

(** [chain = prompt | llm | parser], invoked and turned into a [dict]. *)
Definition extract_resume_data (resume_text : string) : M dict :=
  llm <- get_llm ;;
  reply <- invoke llm (prompt resume_text format_instructions) ;;
  result <- lift (parse reply) ;;
  ret (to_dict result).

(** [for x in xs: acc = step x acc] *)
Fixpoint for_each {A B} (xs : list A) (step : A -> B -> M B) (acc : B)
  : M B :=
  match xs with
  | [] => ret acc
  | x :: rest => acc' <- step x acc ;; for_each rest step acc'
  end.

(** The warning of the [except] branch. *)
Definition failed_to_parse (file : string) (e : exception) : string :=
  "⚠️ Failed to parse " +:+ file +:+ ": " +:+ str e.

(** The [if]/[elif]/[else] on the extension: the text read from the file
    ([None] for the [continue] branch). *)
Definition read_file (f : file) : option (outcome string) :=
  if endswith (lower (fname f)) ".pdf" then Some (read_pdf (fbody f))
  else if endswith (lower (fname f)) ".docx" then Some (read_docx (fbody f))
  else None.

(** The body of the inner loop for one file. *)
Definition process_file (root : string) (f : file)
           (extracted_data : list dict) : M (list dict) :=
  let path := path_join root (fname f) in
  match read_file f with
  | None => ret extracted_data
  | Some r =>
      text <- lift r ;;
      if truthy (strip text)
      then try_except
             (d <- extract_resume_data text ;; ret (extracted_data ++ [d])%list)
             (fun e =>
                st_warning (failed_to_parse (fname f) e) ;;;
                ret extracted_data)
      else ret extracted_data
  end.

Definition insert_at {A} (k : nat) (x : A) (l : list A) : list A :=
  (take k l ++ x :: drop k l)%list.

(** The scratch directory once the archive has been written into it and
    unpacked there. *)
Definition unpacked (zip_file : UploadedFile.t) (entries : dir) : dir :=
  let archive :=
    File (UploadedFile.name zip_file) (UploadedFile.as_document zip_file) in
  Dir (insert_at (listdir_rank (UploadedFile.name zip_file) entries)
                 archive (dir_files entries))
      (dir_subdirs entries).

(** [zipfile.ZipFile(zip_path, 'r').extractall(temp_dir)] *)
Definition extractall (zip_file : UploadedFile.t) (temp_dir : string)
  : M unit :=
  match UploadedFile.as_archive zip_file with
  | None => raise (BadZipFile "File is not a zip file")
  | Some entries =>
      fun w =>
        (Returns tt,
         set_tmp (insert temp_dir (Directory (unpacked zip_file entries))) w)
  end.

(** [os.walk(temp_dir)] on what the temporary directory holds. *)
Definition os_walk (top : string)
  : M (list (string * list string * list file)) :=
  fun w =>
    match tmp w !! top with
    | Some (Directory d) => (Returns (walk top d), w)
    | _ => (Returns [], w)
    end.

Definition process_zip (zip_file : UploadedFile.t) : M (list dict) :=
  let extracted_data := [] in
  TemporaryDirectory (fun temp_dir =>
    let zip_path := path_join temp_dir (UploadedFile.name zip_file) in
    let archive :=
      File (UploadedFile.name zip_file) (UploadedFile.as_document zip_file) in
    (fun w => (Returns tt,
               set_tmp (insert temp_dir (Directory (Dir [archive] []))) w)) ;;;
    extractall zip_file temp_dir ;;;
    triples <- os_walk temp_dir ;;
    for_each triples
             (fun triple acc =>
                let '(root, _, files) := triple in
                for_each files (process_file root) acc)
             extracted_data).

Definition write_csv (data : list dict) : M string :=
  temp_csv <- NamedTemporaryFile_keep ".csv" ;;
  let fieldnames := model_fields_keys in
  match Csv.writeheader fieldnames with
  | Raises e => save temp_csv "" ;;; raise e
  | Returns header =>
      let '(r, content) := Csv.writerows fieldnames data header in
      save temp_csv content ;;;
      lift r ;;;
      ret temp_csv
  end.

(** What the page shows after a click on the button. *)
Inductive shown :=
| NoValidResumes
| Processed (count : nat) (csv_path : string) (preview : list dict).

(** The action behind the "Analyze Resumes" button. *)
Definition analyze (uploaded_zip : UploadedFile.t) : M shown :=
  results <- process_zip uploaded_zip ;;
  match results with
  | [] => ret NoValidResumes
  | _ :: _ =>
      csv_path <- write_csv results ;;
      ret (Processed (List.length results) csv_path results)
  end.

(** One run of the script: key resolution at start-up, then the action
    when an archive is uploaded and the button is clicked. *)
Definition script (user_api_key : string)
           (uploaded_zip : option UploadedFile.t) (clicked : bool)
  : M (option shown) :=
  resolve_api_key user_api_key ;;;
  match uploaded_zip with
  | Some z => if clicked then (r <- analyze z ;; ret (Some r)) else ret None
  | None => ret None
  end.

End Program.

(** ** Vocabulary of the statements *)

(** Every regular file below a directory, in the order [os.walk] meets them. *)
Fixpoint all_files (d : dir) : list file :=
  match d with
  | Dir fs ds => (fs ++ List.flat_map (fun nd => all_files (snd nd)) ds)%list
  end.

(** A file name the walker routes to a reader. *)
Definition supported (file_name : string) : bool :=
  endswith (lower file_name) ".pdf" || endswith (lower file_name) ".docx".


(** The record shape: the eight keys, in schema order (the values are
    strings by the type of [dict]). *)
Definition has_schema (d : dict) : Prop := keys d = model_fields_keys.


(** One CSV row per record: its values in order. *)
Definition data_row (d : dict) : string := Csv.writerow (List.map snd d).

(** The header line of the output file. *)
Definition header_line : string :=
  "name,email,phone,skills,experience_summary,education,linkedin,github"
    +:+ Csv.lineterminator.

(** The whole output file for a batch. *)
Definition csv_text (data : list dict) : string :=
  header_line +:+ join "" (List.map data_row data).

Section Observations.
Context {X : Externals}.

(** The CSV text a click left on disk, if it produced a file. *)
Definition csv_output (run : outcome shown * world) : option string :=
  match run with
  | (Returns (Processed _ csv_path _), w) =>
      match tmp w !! csv_path with
      | Some (RegularFile content) => Some content
      | _ => None
      end
  | _ => None
  end.

(** The LLM extraction call on the provider alone: model call, then
    parser, then [dict()]. *)
Definition extraction (key : option string) (resume_text : string)
           (s : provider) : outcome dict * provider :=
  let '(reply, s') := chat key (prompt resume_text format_instructions) s in
  (obind reply (fun text =>
     obind (parse text) (fun result => Returns (to_dict result))),
   s').

(** Clicks on the button, one upload after the other: what each showed,
    and the world they leave. *)
Fixpoint clicks (uploads : list UploadedFile.t) (w : world)
  : list (outcome shown) * world :=
  match uploads with
  | [] => ([], w)
  | z :: rest =>
      let '(r, w') := analyze z w in
      let '(rs, w'') := clicks rest w' in
      (r :: rs, w'')
  end.

Definition wrote_csv (r : outcome shown) : bool :=
  match r with
  | Returns (Processed _ _ _) => true
  | _ => false
  end.

(** The model answers by its prompt and key alone. *)
Definition deterministic_model : Prop :=
  forall key messages (s s' : provider),
    fst (chat key messages s) = fst (chat key messages s').

End Observations.

(** ** A mocked model, for the examples *)

Module Mock.

(** The reply echoes the user message; a resume that starts with ['!']
    makes the provider fail.  The provider counts the calls. *)
Definition reply_of (key : option string)
           (messages : list (string * string)) (calls : nat)
  : outcome string * nat :=
  match messages with
  | [_; (_, user)] =>
      if String.prefix ("Resume Text:" +:+ newline +:+ "!") user
      then (Raises (ProviderError "quota exceeded"), S calls)
      else (Returns user, S calls)
  | _ => (Raises (ProviderError "bad request"), S calls)
  end.

Definition record_of (reply : string) : outcome ResumeSchema :=
  Returns {| name := reply; email := ""; phone := ""; skills := "";
             experience_summary := ""; education := ""; linkedin := "";
             github := "" |}.

#[export] Instance externals : Externals := {|
  provider := nat;
  chat := reply_of;
  format_instructions := "Return a JSON object.";
  parse := record_of;
  listdir_rank := fun _ _ => 0
|}.

Definition start : world :=
  World (∅ : gmap string string) 0 [] (∅ : gmap string node).

Definition text_page (t : string) : page := Page (Returns (Some t)).

Definition alice : file := File "alice.pdf" (PDF [text_page "Alice"]).
Definition broken : file := File "broken.pdf" Other.
Definition carol : file := File "carol.DOCX" (DOCX ["Carol"; "Engineer"]).
Definition refused : file := File "bob.pdf" (PDF [text_page "!Bob"]).
Definition notes : file := File "notes.txt" Other.

Definition upload (entries : dir) : UploadedFile.t :=
  UploadedFile.Make "resumes.zip" Other (Some entries).

End Mock.

(** ** Induction on directories *)

Fixpoint dir_induction (P : dir -> Prop)
         (step : forall fs ds, Forall (fun nd => P (snd nd)) ds -> P (Dir fs ds))
         (d : dir) : P d :=
  match d with
  | Dir fs ds =>
      step fs ds
           ((fix go (l : list (string * dir)) : Forall (fun nd => P (snd nd)) l :=
               match l with
               | [] => List.Forall_nil _
               | nd :: l0 => List.Forall_cons _ nd l0 (dir_induction P step (snd nd)) (go l0)
               end) ds)
  end.

Section Settled.
Context {X : Externals}.


End Settled.

(** ** Vocabulary of the further statements *)




(** A page without extractable text. *)
Definition blank_page (p : page) : Prop :=
  extract_text p = Returns None \/ extract_text p = Returns (Some "").

Section Verdicts.
Context {X : Externals}.



(** Two worlds the program cannot tell apart once the key is resolved. *)
Definition same_inputs (w w' : world) : Prop :=
  environ w !! "GOOGLE_API_KEY" = environ w' !! "GOOGLE_API_KEY"
  /\ remote w = remote w'
  /\ tmp w = tmp w'.

End Verdicts.

(** ** Reading a row back *)

(** A reader for the rows the writer produces, used to show that the
    output file determines the records. *)
Module CsvRead.

(** An unquoted field: the characters up to the next special one. *)
Fixpoint unquoted (s : string) : string * string :=
  match s with
  | EmptyString => (EmptyString, EmptyString)
  | String c rest =>
      if Csv.special c then (EmptyString, s)
      else let '(f, rest') := unquoted rest in (String c f, rest')
  end.

(** A quoted field, after its opening quote: a doubled quote stands for one
    quote, a single one closes the field. *)
Fixpoint quoted (s : string) : option (string * string) :=
  match s with
  | EmptyString => None
  | String c rest =>
      if Ascii.eqb c Csv.quotechar then
        match rest with
        | String c2 rest2 =>
            if Ascii.eqb c2 Csv.quotechar then
              match quoted rest2 with
              | Some (f, rest') => Some (String c f, rest')
              | None => None
              end
            else Some (EmptyString, rest)
        | EmptyString => Some (EmptyString, EmptyString)
        end
      else
        match quoted rest with
        | Some (f, rest') => Some (String c f, rest')
        | None => None
        end
  end.

Definition field (s : string) : option (string * string) :=
  match s with
  | String c rest =>
      if Ascii.eqb c Csv.quotechar then quoted rest else Some (unquoted s)
  | EmptyString => Some (EmptyString, EmptyString)
  end.

(** [n] fields separated by the delimiter. *)
Fixpoint fields (n : nat) (s : string) : option (list string * string) :=
  match n with
  | O => None
  | S n' =>
      match field s with
      | None => None
      | Some (f, rest) =>
          match n' with
          | O => Some ([f], rest)
          | S _ =>
              match rest with
              | String c rest' =>
                  if Ascii.eqb c Csv.delimiter then
                    match fields n' rest' with
                    | Some (fs, rest'') => Some (f :: fs, rest'')
                    | None => None
                    end
                  else None
              | EmptyString => None
              end
          end
      end
  end.

(** A row of [n] fields and its line terminator. *)
Definition row (n : nat) (s : string) : option (list string * string) :=
  match fields n s with
  | Some (fs, String c1 (String c2 rest)) =>
      if Ascii.eqb c1 "013"%char && Ascii.eqb c2 "010"%char
      then Some (fs, rest) else None
  | _ => None
  end.

End CsvRead.

(** ** Further sample inputs *)

Module Sample.

Definition scan : file := File "scan.pdf" (PDF [Page (Returns None); Page (Returns (Some ""))]).

Definition not_an_archive : UploadedFile.t :=
  UploadedFile.Make "notes.zip" Other None.

(** A process started with [gemini] set. *)
Definition with_system_key : world :=
  @World Mock.externals {[ "gemini" := "sk-1" ]} 0 [] ∅.

Definition ann : dict :=
  to_dict (Build_ResumeSchema "Ann, Lee" "a@b.c" "1" "Rocq" "" "" "" "").

End Sample.

(** * Properties *)

(** ** Strings *)

Lemma append_nil_l (b : string) : "" +:+ b = b.
Proof. reflexivity. Qed.

Lemma append_cons (c : ascii) (a b : string) :
  String c a +:+ b = String c (a +:+ b).
Proof. reflexivity. Qed.

Lemma list_ascii_of_string_app (a b : string) :
  list_ascii_of_string (a +:+ b)
  = (list_ascii_of_string a ++ list_ascii_of_string b)%list.
Proof.
  induction a as [|c a IH]; [reflexivity|].
  rewrite append_cons. simpl. now rewrite IH.
Qed.

Lemma string_length_list (s : string) :
  String.length s = List.length (list_ascii_of_string s).
Proof. induction s as [|c s IH]; simpl; [reflexivity | now rewrite IH]. Qed.

Lemma append_assoc (a b c : string) : (a +:+ b) +:+ c = a +:+ (b +:+ c).
Proof.
  induction a as [|x a IH]; [reflexivity|].
  rewrite !append_cons. now rewrite IH.
Qed.

Lemma append_empty_r (a : string) : a +:+ "" = a.
Proof.
  induction a as [|x a IH]; [reflexivity|].
  rewrite append_cons. now rewrite IH.
Qed.

Lemma stem_of_app (suffix a : string) : stem_of suffix (a +:+ suffix) = a.
Proof.
  unfold stem_of.
  rewrite !string_length_list, list_ascii_of_string_app, length_app.
  replace (_ + _ - _) with (List.length (list_ascii_of_string a)) by lia.
  rewrite take_app_length.
  apply string_of_list_ascii_of_string.
Qed.

Lemma fresh_name_fresh (suffix : string) (used : gset string) :
  fresh_name suffix used ∉ used.
Proof.
  unfold fresh_name. intros Hin.
  apply (is_fresh (set_map (stem_of suffix) used : gset string)).
  apply elem_of_map. eexists. split; [|exact Hin].
  now rewrite stem_of_app.
Qed.


(** ** Text extractors *)

Lemma join_empty_separator (xs : list string) :
  join "" xs = List.fold_right String.append "" xs.
Proof.
  induction xs as [|x [|y rest] IH]; [reflexivity | |].
  - cbn. now rewrite append_empty_r.
  - change (join "" (x :: y :: rest)) with (x +:+ "" +:+ join "" (y :: rest)).
    rewrite IH. reflexivity.
Qed.

Lemma join_fold_left (sep : string) (rest : list string) : forall p,
  join sep (p :: rest)
  = List.fold_left (fun acc q => acc +:+ sep +:+ q) rest p.
Proof.
  assert (Hshift : forall l a b,
             List.fold_left (fun acc q => acc +:+ sep +:+ q) l (a +:+ b)
             = a +:+ List.fold_left (fun acc q => acc +:+ sep +:+ q) l b).
  { induction l as [|q l IHl]; intros a b; [reflexivity|].
    cbn [List.fold_left]. rewrite append_assoc. apply IHl. }
  induction rest as [|q rest IH]; intros p; [reflexivity|].
  change (join sep (p :: q :: rest)) with (p +:+ sep +:+ join sep (q :: rest)).
  rewrite IH. cbn [List.fold_left].
  rewrite <- !Hshift. reflexivity.
Qed.

Lemma page_texts_readable (ts : list (option string)) :
  page_texts (List.map (fun t => Page (Returns t)) ts)
  = Returns (List.map (fun t => or_else t "") ts).
Proof.
  induction ts as [|t ts IH]; [reflexivity|].
  cbn [List.map page_texts extract_text obind]. rewrite IH. reflexivity.
Qed.

Lemma or_else_default (t : option string) : or_else t "" = default "" t.
Proof. destruct t as [[|c s]|]; reflexivity. Qed.

(** C5. For a readable document the extractor returns: for a PDF, the page
    texts concatenated in page order, with the empty string for a page that
    has no extractable text; for a DOCX, the paragraph texts in document
    order, separated by newlines. *)
Theorem extractors_concatenate
        (page_results : list (option string)) (paragraphs : list string) :
  read_pdf (PDF (List.map (fun t => Page (Returns t)) page_results))
  = Returns (spec_pdf_text page_results)
  /\ read_docx (DOCX paragraphs) = Returns (spec_docx_text paragraphs).
Proof.
  split.
  - unfold read_pdf. rewrite page_texts_readable. cbn [obind]. f_equal.
    rewrite join_empty_separator. unfold spec_pdf_text.
    induction page_results as [|t ts IH]; [reflexivity|].
    cbn [List.map List.fold_right]. now rewrite IH, or_else_default.
  - unfold read_docx, spec_docx_text. f_equal.
    destruct paragraphs as [|p rest]; [reflexivity | apply join_fold_left].
Qed.

(** ** CSV writer *)

Lemma dict_to_list_schema (d : dict) :
  has_schema d -> Csv.dict_to_list model_fields_keys d = Returns (List.map snd d).
Proof.
  unfold has_schema, keys, model_fields_keys. intros Hk.
  do 8 (destruct d as [|[? ?] d]; [discriminate|];
        cbn [List.map fst] in Hk; injection Hk as -> Hk).
  destruct d; [reflexivity | discriminate].
Qed.

Lemma join_empty_cons (x : string) (rest : list string) :
  join "" (x :: rest) = x +:+ join "" rest.
Proof. rewrite !join_empty_separator. reflexivity. Qed.

Lemma writerows_schema (data : list dict) :
  Forall has_schema data ->
  forall written,
    Csv.writerows model_fields_keys data written
    = (Returns tt, written +:+ join "" (List.map data_row data)).
Proof.
  induction 1 as [|d data Hd _ IH]; intros written.
  - cbn. now rewrite append_empty_r.
  - cbn [Csv.writerows List.map]. rewrite (dict_to_list_schema d Hd), IH.
    rewrite join_empty_cons, append_assoc. reflexivity.
Qed.

Section Properties.
Context {X : Externals}.

Lemma for_each_app {A B} (xs ys : list A) (step : A -> B -> M B) acc w :
  for_each (xs ++ ys) step acc w
  = match for_each xs step acc w with
    | (Returns acc', w') => for_each ys step acc' w'
    | (Raises e, w') => (Raises e, w')
    end.
Proof.
  revert acc w. induction xs as [|x xs IH]; intros acc w; [reflexivity|].
  simpl. unfold bind. destruct (step x acc w) as [[acc'|e] w']; [apply IH | reflexivity].
Qed.

(** The two nested loops visit the files of [all_files], in that order. *)
Lemma walk_loop (d : dir) : forall top acc w,
  for_each (walk top d)
           (fun triple acc =>
              let '(root, _, files) := triple in
              for_each files (process_file root) acc)
           acc w
  = for_each (all_files d) (process_file "") acc w.
Proof.
  induction d as [fs ds IH] using dir_induction. intros top acc w.
  cbn [walk all_files]. rewrite for_each_app.
  cbn [for_each]. unfold bind at 1.
  change (for_each fs (process_file top) acc w)
    with (for_each fs (process_file "") acc w).
  destruct (for_each fs (process_file "") acc w) as [[acc'|e] w']; [|reflexivity].
  clear acc w. revert acc' w'.
  induction IH as [|nd ds Hnd _ IHds]; intros acc w; [reflexivity|].
  cbn [List.flat_map]. rewrite !for_each_app, Hnd.
  destruct (for_each (all_files nd.2) (process_file "") acc w) as [[acc'|e] w'];
    [apply IHds | reflexivity].
Qed.

Lemma extract_resume_data_eq text w :
  extract_resume_data text w
  = let '(o, s) := extraction (environ w !! "GOOGLE_API_KEY") text (remote w) in
    (o, set_remote s w).
Proof.
  unfold extract_resume_data, extraction, get_llm, getenv, invoke, bind, lift, ret.
  destruct (chat _ _ _) as [[reply|e] s]; cbn; [|reflexivity].
  destruct (parse reply); reflexivity.
Qed.

(** One iteration of the inner loop, case by case. *)
Lemma process_file_eq root f acc w :
  process_file root f acc w
  = match read_file f with
    | None => (Returns acc, w)
    | Some (Raises e) => (Raises e, w)
    | Some (Returns text) =>
        if truthy (strip text) then
          match extraction (environ w !! "GOOGLE_API_KEY") text (remote w) with
          | (Returns d, s) => (Returns (acc ++ [d])%list, set_remote s w)
          | (Raises e, s) =>
              (Returns acc,
               set_warnings (fun l => (l ++ [failed_to_parse (fname f) e])%list)
                            (set_remote s w))
          end
        else (Returns acc, w)
    end.
Proof.
  unfold process_file. destruct (read_file f) as [[text|e]|]; try reflexivity.
  unfold bind at 1, lift.
  destruct (truthy (strip text)); [|reflexivity].
  unfold try_except, bind. rewrite extract_resume_data_eq.
  destruct (extraction _ _ _) as [[d|e] s]; reflexivity.
Qed.

(** The loop neither reads nor changes the temporary directory, and it
    leaves the environment alone. *)
Lemma process_file_tmp root f acc g w :
  process_file root f acc (set_tmp g w)
  = (fst (process_file root f acc w), set_tmp g (snd (process_file root f acc w))).
Proof.
  rewrite !process_file_eq. cbn [environ remote set_tmp].
  destruct (read_file f) as [[text|e]|]; try reflexivity.
  destruct (truthy (strip text)); [|reflexivity].
  destruct (extraction _ _ _) as [[d|e] s]; reflexivity.
Qed.

Lemma process_file_keeps root f acc w :
  tmp (snd (process_file root f acc w)) = tmp w
  /\ environ (snd (process_file root f acc w)) = environ w.
Proof.
  rewrite process_file_eq.
  destruct (read_file f) as [[text|e]|]; try (split; reflexivity).
  destruct (truthy (strip text)); [|split; reflexivity].
  destruct (extraction _ _ _) as [[d|e] s]; split; reflexivity.
Qed.

Lemma loop_tmp fs : forall acc g w,
  for_each fs (process_file "") acc (set_tmp g w)
  = (fst (for_each fs (process_file "") acc w),
     set_tmp g (snd (for_each fs (process_file "") acc w))).
Proof.
  induction fs as [|f fs IH]; intros acc g w; [reflexivity|].
  cbn [for_each]. unfold bind. rewrite process_file_tmp.
  destruct (process_file "" f acc w) as [[acc'|e] w']; cbn [fst snd];
    [apply IH | reflexivity].
Qed.

Lemma loop_keeps fs : forall acc w,
  tmp (snd (for_each fs (process_file "") acc w)) = tmp w
  /\ environ (snd (for_each fs (process_file "") acc w)) = environ w.
Proof.
  induction fs as [|f fs IH]; intros acc w; [split; reflexivity|].
  cbn [for_each]. unfold bind.
  pose proof (process_file_keeps "" f acc w) as [Ht He].
  destruct (process_file "" f acc w) as [[acc'|e] w']; cbn [snd] in *.
  - destruct (IH acc' w') as [Ht' He']. split; congruence.
  - split; assumption.
Qed.

(** The walker, without its scratch directory: the loop over the files of
    the unpacked tree, or the archive error. *)
Lemma process_zip_spec (zip_file : UploadedFile.t) (w : world) :
  process_zip zip_file w
  = match UploadedFile.as_archive zip_file with
    | Some entries =>
        for_each (all_files (unpacked zip_file entries)) (process_file "") [] w
    | None => (Raises (BadZipFile "File is not a zip file"), w)
    end.
Proof.
  unfold process_zip, TemporaryDirectory.
  set (temp_dir := fresh_name "" (dom (tmp w))).
  assert (Hfresh : tmp w !! temp_dir = None).
  { apply not_elem_of_dom, fresh_name_fresh. }
  unfold bind at 1. cbn [fst snd].
  unfold bind at 1, extractall.
  destruct (UploadedFile.as_archive zip_file) as [entries|].
  - unfold bind at 1, os_walk. cbn [tmp set_tmp].
    rewrite lookup_insert_eq. rewrite walk_loop.
    match goal with
    | |- context [for_each _ _ _ ?w0] =>
        change w0 with
          (set_tmp (fun t =>
                      <[temp_dir:=Directory (unpacked zip_file entries)]>
                        (<[temp_dir:=Directory
                                       (Dir [File (UploadedFile.name zip_file)
                                                  (UploadedFile.as_document zip_file)] [])]>
                           (<[temp_dir:=Directory (Dir [] [])]> t))) w)
    end.
    rewrite loop_tmp.
    destruct (loop_keeps (all_files (unpacked zip_file entries)) [] w) as [Ht _].
    destruct (for_each _ _ _ w) as [r w']. cbn [fst snd] in *.
    f_equal. destruct w' as [e s ws t]. cbn in *. subst t.
    unfold set_tmp. cbn. f_equal.
    rewrite !delete_insert_eq. apply delete_id. exact Hfresh.
  - unfold raise. cbn [fst snd]. f_equal.
    destruct w as [e s ws t]. unfold set_tmp. cbn in *. f_equal.
    rewrite !delete_insert_eq. apply delete_id. exact Hfresh.
Qed.

(** ** Scratch directory *)

(** C7. On every exit path of the walker, by return or by exception, the
    scratch directory of the call and all it holds are gone: the
    temporary directory of the system is as it was before the call. *)
Theorem scratch_directory_removed (zip_file : UploadedFile.t) (w : world) :
  (fresh_name "" (dom (tmp w)) ∉ dom (tmp (snd (process_zip zip_file w))))
  /\ tmp (snd (process_zip zip_file w)) = tmp w.
Proof.
  assert (Hsame : tmp (snd (process_zip zip_file w)) = tmp w).
  { rewrite process_zip_spec.
    destruct (UploadedFile.as_archive zip_file); [apply loop_keeps | reflexivity]. }
  split; [rewrite Hsame; apply fresh_name_fresh | exact Hsame].
Qed.

(** ** Unsupported files *)






(** ** Record shape *)

Lemma extraction_schema key text s d s' :
  extraction key text s = (Returns d, s') -> has_schema d.
Proof.
  unfold extraction. destruct (chat _ _ _) as [[reply|e] s0]; cbn [obind];
    [|intros [=]].
  destruct (parse reply) as [result|e]; cbn [obind]; intros [= <- _].
  reflexivity.
Qed.

Lemma process_file_schema root f acc w acc' w' :
  process_file root f acc w = (Returns acc', w') ->
  Forall has_schema acc -> Forall has_schema acc'.
Proof.
  rewrite process_file_eq.
  destruct (read_file f) as [[text|e]|]; [| intros [=] | intros [= <- _]; auto].
  destruct (truthy (strip text)); [| intros [= <- _]; auto].
  destruct (extraction _ _ _) as [[d|e] s] eqn:Hx; intros [= <- _] Hacc; auto.
  apply Forall_app. split; [exact Hacc|].
  apply Forall_cons. split; [|apply Forall_nil; exact I].
  eapply extraction_schema, Hx.
Qed.

Lemma loop_schema fs : forall acc w records w',
  for_each fs (process_file "") acc w = (Returns records, w') ->
  Forall has_schema acc -> Forall has_schema records.
Proof.
  induction fs as [|f fs IH]; intros acc w records w'.
  - intros [= <- _]. auto.
  - cbn [for_each]. unfold bind.
    destruct (process_file "" f acc w) as [[acc'|e] w1] eqn:Hf; [|intros [=]].
    intros Hrest Hacc. eapply IH; [exact Hrest|].
    eapply process_file_schema; eauto.
Qed.

(** C6. Every record of the batch result, and every record the LLM
    extraction call returns, has exactly the eight keys name, email, phone,
    skills, experience_summary, education, linkedin, github, in that
    order, each with a string value. *)
Theorem records_have_the_eight_keys :
  (forall resume_text w d w',
      extract_resume_data resume_text w = (Returns d, w') -> has_schema d)
  /\ (forall zip_file w records w',
         process_zip zip_file w = (Returns records, w') ->
         Forall has_schema records).
Proof.
  split.
  - intros text w d w'. rewrite extract_resume_data_eq.
    destruct (extraction _ _ _) as [o s] eqn:Hx. intros [= -> _].
    eapply extraction_schema, Hx.
  - intros zip_file w records w'. rewrite process_zip_spec.
    destruct (UploadedFile.as_archive zip_file); [|intros [=]].
    intros Hrun. eapply loop_schema; [exact Hrun | apply Forall_nil; exact I].
Qed.

(** ** Failure of the LLM call for one file *)



Lemma set_tmp_insert_twice path a b (w : world) :
  set_tmp (insert path b) (set_tmp (insert path a) w)
  = set_tmp (insert path b) w.
Proof.
  destruct w as [e s ws t]. unfold set_tmp. cbn. f_equal.
  apply insert_insert_eq.
Qed.

(** The writer on any batch: the file is created under a fresh name and
    holds what the rows wrote, also when a row is rejected. *)
Lemma write_csv_eq (data : list dict) (w : world) :
  write_csv data w
  = let path := fresh_name ".csv" (dom (tmp w)) in
    (match fst (Csv.writerows model_fields_keys data header_line) with
     | Returns _ => Returns path
     | Raises e => Raises e
     end,
     set_tmp (insert path
                     (RegularFile
                        (snd (Csv.writerows model_fields_keys data header_line))))
             w).
Proof.
  unfold write_csv, NamedTemporaryFile_keep. unfold bind at 1.
  change (Csv.writeheader model_fields_keys) with (Returns header_line).
  cbn beta iota.
  destruct (Csv.writerows _ _ _) as [[[]|e] content]; cbn [fst snd];
    unfold bind, save, lift, ret; cbn beta iota;
    now rewrite set_tmp_insert_twice.
Qed.

(** C4. For every sequence of records, [write_csv] writes the header row
    with the eight field names in schema order, then one row per record in
    the order of the sequence; it returns the path of the file; the empty
    sequence gives a file with the header alone. *)
Theorem write_csv_layout (data : list dict) (w : world) :
  Forall has_schema data ->
  write_csv data w
  = (Returns (fresh_name ".csv" (dom (tmp w))),
     set_tmp (insert (fresh_name ".csv" (dom (tmp w)))
                     (RegularFile
                        (header_line +:+ join "" (List.map data_row data))))
             w)
  /\ write_csv [] w
     = (Returns (fresh_name ".csv" (dom (tmp w))),
        set_tmp (insert (fresh_name ".csv" (dom (tmp w)))
                        (RegularFile header_line))
                w).
Proof.
  intros Hdata. split.
  - rewrite write_csv_eq, (writerows_schema data Hdata). reflexivity.
  - rewrite write_csv_eq. reflexivity.
Qed.

(** ** The button *)

Lemma process_zip_schema zip_file w records w' :
  process_zip zip_file w = (Returns records, w') -> Forall has_schema records.
Proof.
  rewrite process_zip_spec.
  destruct (UploadedFile.as_archive zip_file); [|intros [=]].
  intros Hrun. eapply loop_schema; [exact Hrun | apply Forall_nil; exact I].
Qed.

Lemma process_zip_keeps zip_file w :
  tmp (snd (process_zip zip_file w)) = tmp w
  /\ environ (snd (process_zip zip_file w)) = environ w.
Proof.
  rewrite process_zip_spec.
  destruct (UploadedFile.as_archive zip_file);
    [apply loop_keeps | split; reflexivity].
Qed.

Lemma analyze_eq zip_file w :
  analyze zip_file w
  = match process_zip zip_file w with
    | (Returns [], w1) => (Returns NoValidResumes, w1)
    | (Returns (d :: ds), w1) =>
        let path := fresh_name ".csv" (dom (tmp w1)) in
        (Returns (Processed (List.length (d :: ds)) path (d :: ds)),
         set_tmp (insert path (RegularFile (csv_text (d :: ds)))) w1)
    | (Raises e, w1) => (Raises e, w1)
    end.
Proof.
  unfold analyze. unfold bind at 1.
  destruct (process_zip zip_file w) as [[[|d ds]|e] w1] eqn:Hrun; try reflexivity.
  unfold bind. rewrite write_csv_eq.
  rewrite (writerows_schema (d :: ds) (process_zip_schema _ _ _ _ Hrun)).
  reflexivity.
Qed.

Lemma csv_output_analyze zip_file w :
  csv_output (analyze zip_file w)
  = match fst (process_zip zip_file w) with
    | Returns (d :: ds) => Some (csv_text (d :: ds))
    | _ => None
    end.
Proof.
  rewrite analyze_eq.
  destruct (process_zip zip_file w) as [[[|d ds]|e] w1]; try reflexivity.
  cbn [fst csv_output tmp set_tmp]. now rewrite lookup_insert_eq.
Qed.

Lemma analyze_keeps_environ zip_file w :
  environ (snd (analyze zip_file w)) = environ w.
Proof.
  rewrite analyze_eq. destruct (process_zip_keeps zip_file w) as [_ He].
  destruct (process_zip zip_file w) as [[[|d ds]|e] w1]; exact He.
Qed.

Lemma extraction_deterministic key text s s' :
  deterministic_model ->
  fst (extraction key text s) = fst (extraction key text s').
Proof.
  intros Hdet. unfold extraction.
  specialize (Hdet key (prompt text format_instructions) s s').
  destruct (chat _ _ s) as [r1 s1], (chat _ _ s') as [r2 s2].
  cbn [fst] in *. now subst.
Qed.

Lemma loop_deterministic fs :
  deterministic_model ->
  forall acc w w',
    environ w = environ w' ->
    fst (for_each fs (process_file "") acc w)
    = fst (for_each fs (process_file "") acc w').
Proof.
  intros Hdet. induction fs as [|f fs IH]; intros acc w w' Henv; [reflexivity|].
  cbn [for_each]. unfold bind. rewrite !process_file_eq, Henv.
  destruct (read_file f) as [[text|e]|]; [| reflexivity | now apply IH].
  destruct (truthy (strip text)); [|now apply IH].
  pose proof (extraction_deterministic (environ w' !! "GOOGLE_API_KEY") text
                                       (remote w) (remote w') Hdet) as Hx.
  destruct (extraction _ _ (remote w)) as [o1 s1],
           (extraction _ _ (remote w')) as [o2 s2].
  cbn [fst] in Hx. subst o2.
  destruct o1; apply IH; exact Henv.
Qed.

(** C9. With a deterministic model, processing the same archive twice gives
    the same record sequence, and the two CSV files hold the same text. *)
Theorem second_run_gives_same_csv (zip_file : UploadedFile.t) (w : world) :
  deterministic_model ->
  fst (process_zip zip_file (snd (analyze zip_file w)))
  = fst (process_zip zip_file w)
  /\ csv_output (analyze zip_file (snd (analyze zip_file w)))
     = csv_output (analyze zip_file w).
Proof.
  intros Hdet.
  assert (Hsame : fst (process_zip zip_file (snd (analyze zip_file w)))
                  = fst (process_zip zip_file w)).
  { rewrite !process_zip_spec.
    destruct (UploadedFile.as_archive zip_file); [|reflexivity].
    apply loop_deterministic; [exact Hdet | apply analyze_keeps_environ]. }
  split; [exact Hsame|]. now rewrite !csv_output_analyze, Hsame.
Qed.

(** ** Output files are kept *)

Lemma analyze_tmp zip_file w :
  (wrote_csv (fst (analyze zip_file w)) = false
   /\ tmp (snd (analyze zip_file w)) = tmp w)
  \/ (wrote_csv (fst (analyze zip_file w)) = true
      /\ exists content,
          tmp (snd (analyze zip_file w))
          = <[fresh_name ".csv" (dom (tmp w)) := RegularFile content]> (tmp w)).
Proof.
  rewrite analyze_eq. destruct (process_zip_keeps zip_file w) as [Ht _].
  destruct (process_zip zip_file w) as [[[|d ds]|e] w1]; cbn [fst snd] in *;
    [left; split; [reflexivity | exact Ht] | | left; split; [reflexivity | exact Ht]].
  right. split; [reflexivity|]. eexists. cbn [tmp set_tmp]. now rewrite Ht.
Qed.

Lemma fresh_name_unused suffix (w : world) :
  tmp w !! fresh_name suffix (dom (tmp w)) = None.
Proof. apply not_elem_of_dom, fresh_name_fresh. Qed.

Lemma clicks_keep uploads : forall w,
  tmp w ⊆ tmp (snd (clicks uploads w))
  /\ size (tmp (snd (clicks uploads w)))
     = size (tmp w) + List.length (List.filter wrote_csv (fst (clicks uploads w))).
Proof.
  induction uploads as [|z rest IH]; intros w.
  - cbn. split; [reflexivity | lia].
  - cbn [clicks].
    pose proof (analyze_tmp z w) as Hz.
    destruct (analyze z w) as [r w1]. cbn [fst snd] in Hz.
    destruct (IH w1) as [Hsub Hsize].
    destruct (clicks rest w1) as [rs w2]. cbn [fst snd] in *.
    cbn [List.filter].
    destruct Hz as [[Hr Ht] | [Hr [content Ht]]]; rewrite Hr.
    + rewrite <- Ht. split; [exact Hsub | exact Hsize].
    + split.
      * etrans; [|exact Hsub]. rewrite Ht.
        apply insert_subseteq, fresh_name_unused.
      * cbn [List.length]. rewrite Hsize, Ht.
        rewrite map_size_insert_None by apply fresh_name_unused. lia.
Qed.

(** C10. Every call of [write_csv] creates a file under a path that was not
    in use, and the file stays: later clicks remove no file, each click
    that writes a CSV leaves one file more, while the walker leaves the
    temporary directory as it found it. *)
Theorem csv_files_are_left_behind (data : list dict) (w : world) :
  (fresh_name ".csv" (dom (tmp w)) ∉ dom (tmp w))
  /\ (forall path, fst (write_csv data w) = Returns path ->
                   path = fresh_name ".csv" (dom (tmp w)))
  /\ (exists content,
         tmp (snd (write_csv data w))
         = <[fresh_name ".csv" (dom (tmp w)) := RegularFile content]> (tmp w))
  /\ size (tmp (snd (write_csv data w))) = S (size (tmp w))
  /\ (forall uploads,
         tmp (snd (write_csv data w))
         ⊆ tmp (snd (clicks uploads (snd (write_csv data w)))))
  /\ (forall uploads,
         size (tmp (snd (clicks uploads w)))
         = size (tmp w)
           + List.length (List.filter wrote_csv (fst (clicks uploads w))))
  /\ (forall zip_file,
         tmp (snd (process_zip zip_file (snd (write_csv data w))))
         = tmp (snd (write_csv data w))).
Proof.
  repeat split.
  - apply fresh_name_fresh.
  - rewrite write_csv_eq. cbn [fst].
    destruct (fst (Csv.writerows _ _ _)); intros path [=]. now subst.
  - rewrite write_csv_eq. eexists. reflexivity.
  - rewrite write_csv_eq. cbn [snd tmp set_tmp].
    apply map_size_insert_None, fresh_name_unused.
  - intros uploads. apply clicks_keep.
  - intros uploads. apply clicks_keep.
  - intros zip_file. apply process_zip_keeps.
Qed.

(** ** Failures that are not isolated *)


(** Key resolution succeeds when a key is typed in or the variable
    [gemini] is set, and raises when neither is the case. *)
Lemma resolve_api_key_absent (w : world) :
  environ w !! "gemini" = None ->
  resolve_api_key "" w = (Raises (TypeError "str expected, not NoneType"), w).
Proof.
  intros Hnone. unfold resolve_api_key, bind, getenv. cbn [truthy].
  now rewrite Hnone.
Qed.

Lemma resolve_api_key_present (w : world) (v : string) :
  environ w !! "gemini" = Some v -> has_nul v = false ->
  resolve_api_key "" w
  = (Returns tt, set_environ (insert "GOOGLE_API_KEY" v) w).
Proof.
  intros Hsome Hnul. unfold resolve_api_key, bind, getenv. cbn [truthy].
  rewrite Hsome. unfold setenv. now rewrite Hnul.
Qed.

End Properties.

(** C1. An archive with a readable, an unreadable and a readable resume:
    the reader's exception leaves the walker, no warning is recorded and the
    record already extracted from the first file is not returned. *)
Theorem unreadable_file_aborts_batch :
  process_zip (Mock.upload (Dir [Mock.alice; Mock.broken; Mock.carol] []))
              Mock.start
  = (Raises (PdfReadError "EOF marker not found"),
     @World Mock.externals ∅ 1 [] ∅).
Proof. vm_compute. reflexivity. Qed.

(** C2. No key typed in and no [gemini] variable: the script raises during
    key resolution, before it looks at the upload. *)
Theorem missing_key_fails_at_startup :
  script "" (Some (Mock.upload (Dir [Mock.alice] []))) true Mock.start
  = (Raises (TypeError "str expected, not NoneType"), Mock.start).
Proof. vm_compute. reflexivity. Qed.

(** ** The statements at concrete inputs *)


Lemma records_have_the_eight_keys_witness :
  exists records w',
    process_zip (Mock.upload (Dir [Mock.alice; Mock.carol] [])) Mock.start
    = (Returns records, w')
    /\ Forall has_schema records.
Proof.
  eexists _, _. split; [vm_compute; reflexivity|].
  eapply (proj2 (records_have_the_eight_keys (X := Mock.externals))
                (Mock.upload (Dir [Mock.alice; Mock.carol] [])) Mock.start).
  vm_compute. reflexivity.
Defined.


Lemma write_csv_layout_witness :
  write_csv [to_dict (Build_ResumeSchema "Ann, Lee" "a@b.c" "1" "Rocq" "" "" "" "")]
            Mock.start
  = (Returns "0.csv",
     set_tmp (insert "0.csv"
                (RegularFile
                   (header_line
                      +:+ String (ascii_of_nat 34) "Ann, Lee"
                      +:+ String (ascii_of_nat 34) ",a@b.c,1,Rocq,,,,"
                      +:+ Csv.lineterminator)))
             Mock.start).
Proof.
  refine (proj1 (write_csv_layout
                   (X := Mock.externals)
                   [to_dict (Build_ResumeSchema "Ann, Lee" "a@b.c" "1" "Rocq"
                                                "" "" "" "")]
                   Mock.start _)).
  repeat constructor.
Defined.

Lemma mock_is_deterministic : deterministic_model (X := Mock.externals).
Proof.
  intros key messages s s'. cbn. unfold Mock.reply_of.
  destruct messages as [|m1 [|[role user] [|m3 rest]]]; try reflexivity.
  destruct (String.prefix _ user); reflexivity.
Defined.

Lemma second_run_gives_same_csv_witness :
  fst (process_zip (Mock.upload (Dir [Mock.alice; Mock.refused] []))
                   (snd (analyze (Mock.upload (Dir [Mock.alice; Mock.refused] []))
                                 Mock.start)))
  = fst (process_zip (Mock.upload (Dir [Mock.alice; Mock.refused] [])) Mock.start)
  /\ csv_output (analyze (Mock.upload (Dir [Mock.alice; Mock.refused] []))
                         (snd (analyze
                                 (Mock.upload (Dir [Mock.alice; Mock.refused] []))
                                 Mock.start)))
     = csv_output (analyze (Mock.upload (Dir [Mock.alice; Mock.refused] []))
                           Mock.start).
Proof.
  apply (second_run_gives_same_csv
           (X := Mock.externals)
           (Mock.upload (Dir [Mock.alice; Mock.refused] [])) Mock.start).
  exact mock_is_deterministic.
Defined.

(** ** Examples *)

Example strip_blank :
  strip (String "009" (String "032" (String "010" ""))) = "".
Proof. reflexivity. Qed.

Example strip_no_break_space :
  truthy (strip (String "194" (String "160" " "))) = false.
Proof. reflexivity. Qed.

Example strip_keeps_inner_spaces : strip "  John  Doe " = "John  Doe".
Proof. reflexivity. Qed.

Example suffix_test_ignores_case :
  supported "Resume.PDF" = true /\ supported "cv.Docx" = true
  /\ supported "cv.doc" = false /\ supported "pdf" = false.
Proof. repeat split; reflexivity. Qed.

Example quoted_field :
  Csv.writerow ["a,b"; String (ascii_of_nat 34) "x"; "plain"]
  = String (ascii_of_nat 34) "a,b"
      +:+ String (ascii_of_nat 34) ","
      +:+ String (ascii_of_nat 34)
            (String (ascii_of_nat 34) (String (ascii_of_nat 34) "x"))
      +:+ String (ascii_of_nat 34) ",plain" +:+ Csv.lineterminator.
Proof. reflexivity. Qed.

Example extra_key_is_rejected :
  fst (Csv.writerows model_fields_keys [[("name", "Ann"); ("age", "41")]]
                     header_line)
  = Raises (ValueError "dict contains fields not in fieldnames: age").
Proof. reflexivity. Qed.

Example walk_is_top_down :
  List.map fname
    (all_files (Dir [Mock.alice] [("old", Dir [Mock.carol] []);
                                   ("new", Dir [Mock.refused] [])]))
  = ["alice.pdf"; "carol.DOCX"; "bob.pdf"].
Proof. reflexivity. Qed.

Example batch_of_three :
  fst (process_zip (Mock.upload (Dir [Mock.alice; Mock.notes; Mock.refused]
                                     [("more", Dir [Mock.carol] [])]))
                   Mock.start)
  = Returns
      [to_dict (Build_ResumeSchema
                  ("Resume Text:" +:+ newline +:+ "Alice" +:+ newline
                     +:+ newline +:+ "Return a JSON object.")
                  "" "" "" "" "" "" "");
       to_dict (Build_ResumeSchema
                  ("Resume Text:" +:+ newline +:+ "Carol" +:+ newline
                     +:+ "Engineer" +:+ newline +:+ newline
                     +:+ "Return a JSON object.")
                  "" "" "" "" "" "" "")].
Proof. vm_compute. reflexivity. Qed.

Example key_typed_in_is_used :
  environ (snd (script "secret" None false Mock.start)) !! "GOOGLE_API_KEY"
  = Some "secret".
Proof. vm_compute. reflexivity. Qed.

(** * Further properties *)

Section Further.
Context {X : Externals}.

(** ** The batch, file by file *)










(** X2. An upload that is not a ZIP archive: the walker raises
    [BadZipFile], the click raises it too, and nothing is left changed: no
    warning, no file, no scratch directory. *)
Theorem bad_archive_aborts (zip_file : UploadedFile.t) (w : world) :
  UploadedFile.as_archive zip_file = None ->
  process_zip zip_file w = (Raises (BadZipFile "File is not a zip file"), w)
  /\ analyze zip_file w = (Raises (BadZipFile "File is not a zip file"), w).
Proof.
  intros Harchive.
  assert (Hrun : process_zip zip_file w
                 = (Raises (BadZipFile "File is not a zip file"), w)).
  { now rewrite process_zip_spec, Harchive. }
  split; [exact Hrun|]. now rewrite analyze_eq, Hrun.
Qed.


(** X6. What a click leaves: when it shows a result, the count is the
    number of records of the batch and is not zero, and the file at the
    path shown, which was not in use, holds the CSV text of these records;
    when it shows that no resume was found, or raises, no file is written.
    The environment is never changed. *)
Theorem click_postcondition (zip_file : UploadedFile.t) (w : world) :
  match analyze zip_file w with
  | (Returns NoValidResumes, w') =>
      fst (process_zip zip_file w) = Returns [] /\ tmp w' = tmp w
  | (Returns (Processed count csv_path preview), w') =>
      fst (process_zip zip_file w) = Returns preview
      /\ count = List.length preview /\ 0 < count
      /\ Forall has_schema preview
      /\ (csv_path ∉ dom (tmp w))
      /\ tmp w' = <[csv_path := RegularFile (csv_text preview)]> (tmp w)
  | (Raises e, w') =>
      fst (process_zip zip_file w) = Raises e /\ tmp w' = tmp w
  end
  /\ environ (snd (analyze zip_file w)) = environ w.
Proof.
  split; [|apply analyze_keeps_environ].
  rewrite analyze_eq. pose proof (process_zip_keeps zip_file w) as [Htmp _].
  destruct (process_zip zip_file w) as [[[|d ds]|e] w1] eqn:Hrun;
    cbn [fst snd] in *; [split; [reflexivity | exact Htmp] | |
                         split; [reflexivity | exact Htmp]].
  repeat split.
  - cbn [List.length]. lia.
  - eapply process_zip_schema, Hrun.
  - rewrite Htmp. apply fresh_name_fresh.
  - cbn [tmp set_tmp]. now rewrite Htmp.
Qed.

End Further.

Section Further2.
Context {X : Externals}.

(** ** The key the model is called with *)

Lemma process_file_same root f acc w w' :
  same_inputs w w' ->
  fst (process_file root f acc w) = fst (process_file root f acc w')
  /\ same_inputs (snd (process_file root f acc w))
                 (snd (process_file root f acc w')).
Proof.
  intros (Hkey & Hremote & Htmp). rewrite !process_file_eq, Hkey, Hremote.
  destruct (read_file f) as [[text|e]|];
    [| split; [reflexivity | repeat split; assumption] ..].
  destruct (truthy (strip text));
    [| split; [reflexivity | repeat split; assumption]].
  destruct (extraction _ _ _) as [[d|e] s];
    (split; [reflexivity | repeat split; assumption]).
Qed.

Lemma loop_same (fs : list file) : forall acc w w',
  same_inputs w w' ->
  fst (for_each fs (process_file "") acc w)
  = fst (for_each fs (process_file "") acc w')
  /\ same_inputs (snd (for_each fs (process_file "") acc w))
                 (snd (for_each fs (process_file "") acc w')).
Proof.
  induction fs as [|f fs IH]; intros acc w w' Hsame.
  - split; [reflexivity | exact Hsame].
  - cbn [for_each]. unfold bind.
    destruct (process_file_same "" f acc w w' Hsame) as [Hfst Hsnd].
    destruct (process_file "" f acc w) as [o1 w1],
             (process_file "" f acc w') as [o2 w2].
    cbn [fst snd] in *. subst o2.
    destruct o1 as [acc'|e]; [now apply IH | split; [reflexivity | exact Hsnd]].
Qed.

Lemma analyze_same zip_file w w' :
  same_inputs w w' ->
  fst (analyze zip_file w) = fst (analyze zip_file w').
Proof.
  intros Hsame. rewrite !analyze_eq, !process_zip_spec.
  destruct (UploadedFile.as_archive zip_file) as [entries|]; [|reflexivity].
  destruct (loop_same (all_files (unpacked zip_file entries)) [] w w' Hsame)
    as [Hfst (_ & _ & Htmp)].
  destruct (for_each _ _ _ w) as [o1 w1], (for_each _ _ _ w') as [o2 w2].
  cbn [fst snd] in *. subst o2.
  destruct o1 as [[|d ds]|e]; cbn [fst]; try reflexivity.
  now rewrite Htmp.
Qed.

(** X7. A key typed in the sidebar overrides the environment: what the
    script shows does not depend on any variable of the process
    environment, and after key resolution [GOOGLE_API_KEY] is the typed
    key (a key with a NUL character is refused by the environment). *)
Theorem typed_key_overrides_environment
        (user_api_key : string) (uploaded_zip : option UploadedFile.t)
        (clicked : bool) (w w' : world) :
  truthy user_api_key = true ->
  remote w = remote w' -> tmp w = tmp w' ->
  fst (script user_api_key uploaded_zip clicked w)
  = fst (script user_api_key uploaded_zip clicked w')
  /\ (has_nul user_api_key = false ->
      environ (snd (resolve_api_key user_api_key w)) !! "GOOGLE_API_KEY"
      = Some user_api_key).
Proof.
  intros Htyped Hremote Htmp. unfold script, resolve_api_key, setenv.
  rewrite Htyped. unfold bind at 1 3.
  destruct (has_nul user_api_key); [split; [reflexivity | discriminate]|].
  split; [|intros _; cbn [snd environ set_environ]; apply lookup_insert_eq].
  destruct uploaded_zip as [z|]; [|reflexivity].
  destruct clicked; [|reflexivity].
  unfold bind, ret.
  pose proof (analyze_same z
                (set_environ (insert "GOOGLE_API_KEY" user_api_key) w)
                (set_environ (insert "GOOGLE_API_KEY" user_api_key) w')) as Hsame.
  destruct (analyze z (set_environ _ w)) as [o1 w1],
           (analyze z (set_environ _ w')) as [o2 w2].
  cbn [fst] in Hsame. rewrite Hsame.
  - destruct o2; reflexivity.
  - repeat split; cbn [environ remote tmp set_environ]; try assumption.
    now rewrite !lookup_insert_eq.
Qed.

(** X8. Without a typed key the value of [gemini] stands in for it: the
    script does what it does when that value is typed in. *)
Theorem system_key_stands_in
        (v : string) (uploaded_zip : option UploadedFile.t) (clicked : bool)
        (w : world) :
  environ w !! "gemini" = Some v ->
  script "" uploaded_zip clicked w = script v uploaded_zip clicked w.
Proof.
  intros Hsome. destruct v as [|c v]; [reflexivity|].
  unfold script, resolve_api_key, getenv. cbn [truthy].
  unfold bind at 1 2 4. now rewrite Hsome.
Qed.

(** ** Readers *)

(** X9. A PDF is read page by page until a page raises: the reader then
    raises that exception and returns no partial text; a file that is not a
    PDF, or not a DOCX, makes its reader raise. *)
Theorem readers_raise_without_partial_text
        (texts : list (option string)) (e : exception) (after : list page)
        (paragraphs : list string) :
  read_pdf (PDF (List.map (fun t => Page (Returns t)) texts
                   ++ Page (Raises e) :: after))
  = Raises e
  /\ (exists e', read_pdf Other = Raises e')
  /\ (exists e', read_pdf (DOCX paragraphs) = Raises e')
  /\ (exists e', read_docx Other = Raises e')
  /\ (exists e', read_docx (PDF after) = Raises e').
Proof.
  split; [|repeat split; eexists; reflexivity].
  unfold read_pdf.
  assert (Hpages : page_texts (List.map (fun t => Page (Returns t)) texts
                                 ++ Page (Raises e) :: after) = Raises e).
  { induction texts as [|t ts IH]; [reflexivity|].
    cbn [List.map app page_texts extract_text obind]. now rewrite IH. }
  now rewrite Hpages.
Qed.

Lemma page_texts_blank (pages : list page) :
  Forall blank_page pages ->
  exists ts, page_texts pages = Returns ts /\ join "" ts = "".
Proof.
  induction 1 as [|p pages Hp _ (ts & Hts & Hjoin)].
  - exists []. split; reflexivity.
  - exists ("" :: ts). cbn [page_texts]. rewrite Hts.
    destruct Hp as [-> | ->]; cbn [obind or_else truthy];
      (split; [reflexivity | now rewrite join_empty_cons, Hjoin]).
Qed.

(** X10. A PDF none of whose pages has extractable text (a scan) is read
    as the empty text and passed by: no record, no warning, no call of the
    model. *)
Theorem scanned_pdf_is_passed_by
        (root file_name : string) (pages : list page)
        (acc : list dict) (w : world) :
  endswith (lower file_name) ".pdf" = true ->
  Forall blank_page pages ->
  read_pdf (PDF pages) = Returns ""
  /\ process_file root (File file_name (PDF pages)) acc w = (Returns acc, w).
Proof.
  intros Hpdf Hblank.
  destruct (page_texts_blank pages Hblank) as (ts & Hts & Hjoin).
  assert (Hread : read_pdf (PDF pages) = Returns "").
  { unfold read_pdf. rewrite Hts. cbn [obind]. now rewrite Hjoin. }
  split; [exact Hread|].
  rewrite process_file_eq. unfold read_file. cbn [fname fbody].
  now rewrite Hpdf, Hread.
Qed.

End Further2.

(** ** The walk *)



(** ** The output file determines the records *)

Lemma unquoted_app (f rest : string) :
  Csv.needs_quotes f = false ->
  (rest = "" \/ exists c r, rest = String c r /\ Csv.special c = true) ->
  CsvRead.unquoted (f +:+ rest) = (f, rest).
Proof.
  intros Hf Hrest. induction f as [|a f IH].
  - rewrite append_nil_l.
    destruct Hrest as [-> | (c & r & -> & Hc)]; [reflexivity|].
    cbn [CsvRead.unquoted]. now rewrite Hc.
  - cbn [Csv.needs_quotes] in Hf. apply orb_false_elim in Hf as [Ha Hf].
    rewrite append_cons. cbn [CsvRead.unquoted]. now rewrite Ha, (IH Hf).
Qed.

Lemma quoted_app (f rest : string) :
  (forall r, rest <> String Csv.quotechar r) ->
  CsvRead.quoted (Csv.double_quotes f +:+ String Csv.quotechar rest)
  = Some (f, rest).
Proof.
  intros Hrest. induction f as [|a f IH].
  - rewrite append_nil_l. cbn [Csv.double_quotes CsvRead.quoted].
    rewrite Ascii.eqb_refl. destruct rest as [|c r]; [reflexivity|].
    destruct (Ascii.eqb c Csv.quotechar) eqn:Hc; [|reflexivity].
    apply Ascii.eqb_eq in Hc. subst c. now destruct (Hrest r).
  - cbn [Csv.double_quotes].
    destruct (Ascii.eqb a Csv.quotechar) eqn:Ha.
    + rewrite !append_cons. cbn [CsvRead.quoted]. now rewrite Ha, IH.
    + rewrite append_cons. cbn [CsvRead.quoted]. now rewrite Ha, IH.
Qed.

Lemma field_write (f : string) (c : ascii) (r : string) :
  Csv.special c = true -> c <> Csv.quotechar ->
  CsvRead.field (Csv.write_field f +:+ String c r) = Some (f, String c r).
Proof.
  intros Hc Hq. unfold Csv.write_field.
  destruct (Csv.needs_quotes f) eqn:Hf.
  - rewrite append_assoc, !append_cons, append_nil_l.
    cbn [CsvRead.field]. rewrite Ascii.eqb_refl.
    apply quoted_app. intros r' [= Heq _]. now apply Hq.
  - assert (Hun : CsvRead.unquoted (f +:+ String c r) = (f, String c r)).
    { apply unquoted_app; [exact Hf | right; eauto]. }
    destruct f as [|a f].
    + rewrite append_nil_l in *. cbn [CsvRead.field].
      destruct (Ascii.eqb c Csv.quotechar) eqn:Hcq;
        [apply Ascii.eqb_eq in Hcq; now destruct Hq | now rewrite Hun].
    + rewrite append_cons in *. cbn [CsvRead.field].
      cbn [Csv.needs_quotes] in Hf. apply orb_false_elim in Hf as [Ha _].
      destruct (Ascii.eqb a Csv.quotechar) eqn:Haq; [|now rewrite Hun].
      unfold Csv.special in Ha. rewrite Haq in Ha.
      now rewrite orb_true_r in Ha.
Qed.

Lemma join_cons_cons (sep x y : string) (rest : list string) :
  join sep (x :: y :: rest) = x +:+ sep +:+ join sep (y :: rest).
Proof. reflexivity. Qed.

Lemma fields_step (n : nat) (s : string) :
  CsvRead.fields (S (S n)) s
  = match CsvRead.field s with
    | None => None
    | Some (f, rest) =>
        match rest with
        | String c rest' =>
            if Ascii.eqb c Csv.delimiter then
              match CsvRead.fields (S n) rest' with
              | Some (fs, rest'') => Some (f :: fs, rest'')
              | None => None
              end
            else None
        | EmptyString => None
        end
    end.
Proof. reflexivity. Qed.

Lemma fields_write (fs : list string) (R : string) :
  fs <> [] ->
  CsvRead.fields (List.length fs)
                 (join (String Csv.delimiter "") (List.map Csv.write_field fs)
                    +:+ Csv.lineterminator +:+ R)
  = Some (fs, Csv.lineterminator +:+ R).
Proof.
  induction fs as [|f [|g fs] IH]; intros Hne; [now destruct Hne | |].
  - cbn [List.length List.map join CsvRead.fields].
    unfold Csv.lineterminator. rewrite append_cons.
    now rewrite field_write.
  - change (List.length (f :: g :: fs)) with (S (S (List.length fs))).
    cbn [List.map]. rewrite join_cons_cons, !append_assoc.
    rewrite append_cons, append_nil_l.
    rewrite fields_step, field_write by easy.
    rewrite Ascii.eqb_refl.
    change (S (List.length fs)) with (List.length (g :: fs)).
    change (Csv.write_field g :: List.map Csv.write_field fs)
      with (List.map Csv.write_field (g :: fs)).
    rewrite IH by easy. reflexivity.
Qed.

Lemma row_write (fs : list string) (R : string) :
  2 <= List.length fs ->
  CsvRead.row (List.length fs) (Csv.writerow fs +:+ R) = Some (fs, R).
Proof.
  intros Hlen. unfold CsvRead.row, Csv.writerow.
  destruct fs as [|f [|g fs]]; cbn [List.length] in Hlen; [lia | lia |].
  assert (Hrow : forall f0,
             match f0 :: g :: fs with
             | [EmptyString] =>
                 String Csv.quotechar (String Csv.quotechar Csv.lineterminator)
             | _ => join (String Csv.delimiter "")
                         (List.map Csv.write_field (f0 :: g :: fs))
                      +:+ Csv.lineterminator
             end
             = join (String Csv.delimiter "")
                    (List.map Csv.write_field (f0 :: g :: fs))
                 +:+ Csv.lineterminator).
  { intros [|? ?]; reflexivity. }
  rewrite Hrow, append_assoc, fields_write by easy.
  reflexivity.
Qed.

Lemma dict_by_columns (d d' : dict) :
  keys d = keys d' -> List.map snd d = List.map snd d' -> d = d'.
Proof.
  revert d'. induction d as [|[k v] d IH]; intros [|[k' v'] d'] Hk Hv;
    try discriminate; [reflexivity|].
  cbn in Hk, Hv. injection Hk as -> Hk. injection Hv as -> Hv.
  f_equal. now apply IH.
Qed.

Lemma schema_width (d : dict) :
  has_schema d -> List.length (List.map snd d) = 8.
Proof.
  intros Hd. rewrite length_map, <- (length_map fst).
  unfold has_schema, keys in Hd. now rewrite Hd.
Qed.

Lemma row_of_record (d : dict) (R : string) :
  has_schema d -> CsvRead.row 8 (data_row d +:+ R) = Some (List.map snd d, R).
Proof.
  intros Hd. rewrite <- (schema_width d Hd). apply row_write.
  rewrite (schema_width d Hd). lia.
Qed.

Lemma rows_injective (data : list dict) : forall data',
  Forall has_schema data -> Forall has_schema data' ->
  join "" (List.map data_row data) = join "" (List.map data_row data') ->
  data = data'.
Proof.
  induction data as [|d data IH]; intros [|d' data'] Hall Hall' Heq.
  - reflexivity.
  - exfalso. apply Forall_cons in Hall' as [Hd' _].
    cbn [List.map] in Heq. rewrite join_empty_cons in Heq.
    pose proof (row_of_record d' (join "" (List.map data_row data')) Hd')
      as Hrow.
    rewrite <- Heq in Hrow. discriminate.
  - exfalso. apply Forall_cons in Hall as [Hd _].
    cbn [List.map] in Heq. rewrite join_empty_cons in Heq.
    pose proof (row_of_record d (join "" (List.map data_row data)) Hd)
      as Hrow.
    rewrite Heq in Hrow. discriminate.
  - apply Forall_cons in Hall as [Hd Hall].
    apply Forall_cons in Hall' as [Hd' Hall'].
    cbn [List.map] in Heq. rewrite !join_empty_cons in Heq.
    pose proof (row_of_record d (join "" (List.map data_row data)) Hd)
      as Hrow.
    rewrite Heq, (row_of_record d' _ Hd') in Hrow.
    injection Hrow as Hcols Hrest.
    f_equal.
    + apply dict_by_columns; [unfold has_schema in *; congruence | now symmetry].
    + apply IH; [assumption | assumption | now symmetry].
Qed.

(** X12. The output file determines the batch: two sequences of records
    with the schema keys that give the same CSV text are the same. *)
Theorem csv_text_determines_records (data data' : list dict) :
  Forall has_schema data -> Forall has_schema data' ->
  csv_text data = csv_text data' -> data = data'.
Proof.
  intros Hall Hall' Heq. unfold csv_text in Heq.
  apply (inj (String.append header_line)) in Heq.
  now apply rows_injective.
Qed.

(** ** Rows the writer rejects *)

Lemma writerows_app (good rest : list dict) :
  Forall has_schema good ->
  forall written,
    Csv.writerows model_fields_keys (good ++ rest) written
    = Csv.writerows model_fields_keys rest
                    (written +:+ join "" (List.map data_row good)).
Proof.
  induction 1 as [|d good Hd _ IH]; intros written.
  - cbn. now rewrite append_empty_r.
  - cbn [app Csv.writerows List.map]. rewrite (dict_to_list_schema d Hd), IH.
    now rewrite join_empty_cons, append_assoc.
Qed.

Lemma dict_to_list_unknown_key (bad : dict) (k : string) :
  k ∈ keys bad -> k ∉ model_fields_keys ->
  exists msg, Csv.dict_to_list model_fields_keys bad = Raises (ValueError msg).
Proof.
  intros Hin Hout. unfold Csv.dict_to_list.
  destruct (List.filter _ (keys bad)) as [|k' wrong] eqn:Hfilter;
    [|eexists; reflexivity].
  exfalso.
  assert (Hk : In k (List.filter
                       (fun k => negb (existsb (String.eqb k) model_fields_keys))
                       (keys bad))).
  { apply List.filter_In. split; [now apply list_elem_of_In|].
    apply negb_true_iff, not_true_iff_false. intros Hex.
    apply List.existsb_exists in Hex as (x & Hx & Heq).
    apply String.eqb_eq in Heq. subst x. now apply Hout, list_elem_of_In. }
  rewrite Hfilter in Hk. destruct Hk.
Qed.

Section Further3.
Context {X : Externals}.

(** X13. A row with a key outside the schema stops the writer with a
    [ValueError]; the file, already created, stays on disk with the header
    and the rows written before that row. *)
Theorem write_csv_rejects_unknown_key
        (good : list dict) (bad : dict) (rest : list dict) (k : string)
        (w : world) :
  Forall has_schema good ->
  k ∈ keys bad -> k ∉ model_fields_keys ->
  exists msg,
    write_csv (good ++ bad :: rest) w
    = (Raises (ValueError msg),
       set_tmp (insert (fresh_name ".csv" (dom (tmp w)))
                       (RegularFile (csv_text good)))
               w).
Proof.
  intros Hgood Hin Hout.
  destruct (dict_to_list_unknown_key bad k Hin Hout) as (msg & Hbad).
  exists msg. rewrite write_csv_eq, (writerows_app good _ Hgood).
  cbn [Csv.writerows]. rewrite Hbad. reflexivity.
Qed.

End Further3.

(** ** The further statements at concrete inputs *)


Lemma bad_archive_aborts_witness :
  process_zip Sample.not_an_archive Mock.start
  = (Raises (BadZipFile "File is not a zip file"), Mock.start)
  /\ analyze Sample.not_an_archive Mock.start
     = (Raises (BadZipFile "File is not a zip file"), Mock.start).
Proof.
  apply (bad_archive_aborts (X := Mock.externals) Sample.not_an_archive
                            Mock.start).
  reflexivity.
Defined.





Lemma typed_key_overrides_environment_witness :
  fst (script "typed" (Some (Mock.upload (Dir [Mock.alice] []))) true Mock.start)
  = fst (script "typed" (Some (Mock.upload (Dir [Mock.alice] []))) true
                Sample.with_system_key)
  /\ (has_nul "typed" = false ->
      environ (snd (resolve_api_key "typed" Mock.start)) !! "GOOGLE_API_KEY"
      = Some "typed").
Proof.
  apply (typed_key_overrides_environment
           (X := Mock.externals) "typed"
           (Some (Mock.upload (Dir [Mock.alice] []))) true
           Mock.start Sample.with_system_key);
    reflexivity.
Defined.

Lemma system_key_stands_in_witness :
  script "" (Some (Mock.upload (Dir [Mock.alice] []))) true Sample.with_system_key
  = script "sk-1" (Some (Mock.upload (Dir [Mock.alice] []))) true
           Sample.with_system_key.
Proof.
  apply (system_key_stands_in (X := Mock.externals) "sk-1"
                              (Some (Mock.upload (Dir [Mock.alice] []))) true
                              Sample.with_system_key).
  reflexivity.
Defined.

Lemma scanned_pdf_is_passed_by_witness :
  read_pdf (fbody Sample.scan) = Returns ""
  /\ process_file "tmp0" Sample.scan [] Mock.start = (Returns [], Mock.start).
Proof.
  apply (scanned_pdf_is_passed_by (X := Mock.externals) "tmp0" "scan.pdf"
                                  [Page (Returns None); Page (Returns (Some ""))]
                                  [] Mock.start).
  - reflexivity.
  - apply List.Forall_cons; [left; reflexivity|].
    apply List.Forall_cons; [right; reflexivity|].
    apply List.Forall_nil.
Defined.

Lemma csv_text_determines_records_witness :
  [Sample.ann] = [to_dict (Build_ResumeSchema "Ann, Lee" "a@b.c" "1" "Rocq"
                                              "" "" "" "")].
Proof.
  apply (csv_text_determines_records
           [Sample.ann]
           [to_dict (Build_ResumeSchema "Ann, Lee" "a@b.c" "1" "Rocq"
                                        "" "" "" "")]).
  - repeat constructor.
  - repeat constructor.
  - reflexivity.
Defined.

Lemma write_csv_rejects_unknown_key_witness :
  exists msg,
    write_csv ([Sample.ann] ++ [("name", "Bo"); ("age", "41")] :: [Sample.ann])
              Mock.start
    = (Raises (ValueError msg),
       set_tmp (insert (fresh_name ".csv" (dom (tmp Mock.start)))
                       (RegularFile (csv_text [Sample.ann])))
               Mock.start).
Proof.
  apply (write_csv_rejects_unknown_key
           (X := Mock.externals)
           [Sample.ann] [("name", "Bo"); ("age", "41")] [Sample.ann] "age"
           Mock.start).
  - repeat constructor.
  - apply list_elem_of_In. right. left. reflexivity.
  - intros Hin. apply list_elem_of_In in Hin. cbn in Hin.
    repeat (destruct Hin as [Hin | Hin]; [discriminate Hin|]). exact Hin.
Defined.

Section Further4.
Context {X : Externals}.

(** ** From the archive to the file *)



End Further4.


